(** * kubectl-image pull: the client side of the image transfer pipeline

    A shallow embedding of [cmd/kubectl-image/pull.go]: the [init] function
    that registers the [--insecure] flag, the [RunE] closure of the
    [imagepull] command and [pullImage].

    The code is a sequential chain of calls into collaborators (cobra,
    client-go, grpc, the temp file manager, the progress bar, the
    containers/image library).  Every such call is modelled as an action
    that appends one [Event] to a chronological trace, consults an
    environment [Env] for the call's outcome and updates the [World] of
    resources the call touches (open connections, temp files).  Go's
    [defer] is modelled by [defer], which runs the deferred action after
    the rest of the function body, on whichever return that body took. *)

From stdpp Require Import gmap strings list fin_maps.

Open Scope string_scope.
Open Scope list_scope.

(** ** Go values *)

(** Go's [error]: a message built by [fmt.Errorf] without a verb, or a
    message wrapping a cause with [%w]. *)
Inductive error : Type :=
| errorString (msg : string)
| wrapError (msg : string) (cause : error).

(** A Go call returning [(T, error)]. *)
Inductive result (A : Type) : Type :=
| Ok (a : A)
| Err (e : error).
Arguments Ok {A} a.
Arguments Err {A} e.

(** The [imageindex] as [pullImage] reads it: [idx.server], [idx.namespace]
    and [idx.name]. *)
Record imageindex : Type := {
  server : string;
  namespace : string;
  name : string
}.

(** [rest.Config], reduced to the one field the command reads. *)
Record Config : Type := { BearerToken : string }.

(** [tls.Config] as the command builds it. *)
Record tls_Config : Type := { InsecureSkipVerify : bool }.

(** A [grpc.ClientConn] remembers the target it was dialed to and the
    transport credentials it was dialed with. *)
Record ClientConn : Type := {
  conn_target : string;
  conn_creds : tls_Config
}.

(** [pb.Header] and the [pb.Packet] carrying it. *)
Record Header : Type := {
  Name : string;
  Namespace : string;
  Token : string
}.

Inductive Packet_TestOneof : Type :=
| Packet_Header (h : Header).

Record Packet : Type := { TestOneof : Packet_TestOneof }.

(** The client side of the stream opened by [client.Pull]. *)
Record PullClient : Type := {
  stream_conn : ClientConn;
  stream_request : Packet
}.

(** The handle returned by [createHomeTempDir]. *)
Record FS : Type := { tmpdir : string }.

(** An [os.File], identified by [fp.Name()]. *)
Record File : Type := { file_name : string }.

(** The function value returned next to the temp file: a closure over the
    file it releases. *)
Record CleanupFn : Type := { cleanup_path : string }.

Record ProgressBar : Type := { pbar_label : string }.

(** [types.ImageReference]: transport name and the string within it.  An
    interface value: where it may be nil it is an [option]. *)
Record ImageReference : Type := {
  ref_transport : string;
  ref_within : string
}.

(** [signature.PolicyRequirement], [signature.Policy] and
    [signature.PolicyContext]. *)
Inductive PolicyRequirement : Type :=
| PRInsecureAcceptAnything
| PRReject
| PRSignedBy (keyPath : string)
| PRSignedBaseLayer.

Record Policy : Type := {
  Default : list PolicyRequirement;
  Transports : list (string * list (string * list PolicyRequirement))
}.

Record PolicyContext : Type := { ctx_Policy : Policy }.

(** ** Calls, environment and resources *)

(** One constructor per call the command makes into a collaborator, with
    the arguments of the call. *)
Inductive Event : Type :=
| EvGetBool (flag : string)
| EvGetenv (var : string)
| EvBuildConfigFromFlags (masterUrl kubeconfigPath : string)
| EvIndexFor (arg : string)
| EvDialContext (target : string) (creds : tls_Config)
| EvPull (conn : ClientConn) (pkt : Packet)
| EvCreateHomeTempDir
| EvTempFile (fsh : FS)
| EvProgbarNew (label : string)
| EvReceive (stream : PullClient) (fp : File)
| EvCleanup (path : string)
| EvParseImageName (imgname : string)
| EvPbarWait (pbar : ProgressBar)
| EvLocalStorageRef (idx : imageindex)
| EvNewPolicyContext (pol : Policy)
| EvCopyImage (polctx : PolicyContext) (dstref : ImageReference)
    (srcref : option ImageReference)
| EvNilFuncCall.

(** The outcome of every call whose implementation lies outside
    [pull.go].  [indexFor], [localStorageRef], [createHomeTempDir],
    [TempFile] and [pb.Receive] belong to other files of the repository;
    the rest are library calls.  Cancellation of the context shows up as
    the error outcome of the call it interrupts. *)
Record Env : Type := {
  env_Getenv : string -> string;
  env_BuildConfigFromFlags : string -> string -> result Config;
  env_indexFor : string -> result imageindex;
  env_localStorageRef : imageindex -> result ImageReference;
  env_DialContext : string -> tls_Config -> option error;
  env_Pull : ClientConn -> Packet -> option error;
  env_createHomeTempDir : result FS;
  env_TempFile : FS -> result File;
  env_Receive : PullClient -> File -> N * option error;
  env_ParseImageName : string -> result ImageReference;
  env_NewPolicyContext : Policy -> option error;
  env_copy_Image :
    PolicyContext -> ImageReference -> option ImageReference -> option error
}.

(** The resources the command can leave behind: open gRPC connections and
    files in the temp directory, with the number of bytes each holds. *)
Record World : Type := {
  conns : list ClientConn;
  files : gmap string N
}.

Definition empty_world : World := {| conns := []; files := ∅ |}.

(** ** The monad of actions *)

Record Outcome (A : Type) : Type := {
  value : A;
  world : World;
  trace : list Event
}.
Arguments value {A} o.
Arguments world {A} o.
Arguments trace {A} o.

Definition M (A : Type) : Type := World -> Outcome A.

Definition ret {A : Type} (a : A) : M A :=
  fun w => {| value := a; world := w; trace := [] |}.

Definition bind {A B : Type} (m : M A) (k : A -> M B) : M B :=
  fun w =>
    match m w with
    | {| value := a; world := w1; trace := t1 |} =>
        match k a w1 with
        | {| value := b; world := w2; trace := t2 |} =>
            {| value := b; world := w2; trace := t1 ++ t2 |}
        end
    end.

Declare Scope action_scope.
Delimit Scope action_scope with action.
Notation "x <- m ;; k" := (bind m (fun x => k))
  (at level 100, m at next level, right associativity) : action_scope.
Notation "m ;;; k" := (bind m (fun _ => k))
  (at level 100, right associativity) : action_scope.
Open Scope action_scope.

Definition call (e : Event) : M unit :=
  fun w => {| value := tt; world := w; trace := [e] |}.

Definition modify (f : World -> World) : M unit :=
  fun w => {| value := tt; world := f w; trace := [] |}.

(** [defer d] followed by the rest of the function body [body]: the
    deferred call runs once [body] has evaluated its return values, and
    the function returns those values. *)
Definition defer {A : Type} (d : M unit) (body : M A) : M A :=
  r <- body ;; d ;;; ret r.

(** ** cobra flags *)

(** [Flags().Bool name value usage]: defines a boolean flag with a
    default value. *)
Definition Flags_Bool (flagname : string) (dflt : bool)
    (fs : gmap string bool) : gmap string bool :=
  <[flagname := dflt]> fs.

(** What command line parsing does for [--name=v]. *)
Definition Flags_Set (flagname : string) (v : bool)
    (fs : gmap string bool) : gmap string bool :=
  match fs !! flagname with
  | Some _ => <[flagname := v]> fs
  | None => fs
  end.

Definition Flags_lookup (fs : gmap string bool) (flagname : string)
    : result bool :=
  match fs !! flagname with
  | Some b => Ok b
  | None => Err (errorString ("flag accessed but not defined: " +:+ flagname))
  end.

(** [func init()]: registers [--insecure], default [false]. *)
Definition init : gmap string bool :=
  Flags_Bool "insecure" false ∅.

(** The flag set [RunE] sees: [init]'s, after the command line was parsed.
    [None] when [--insecure] was not given. *)
Definition parsed_flags (given : option bool) : gmap string bool :=
  match given with
  | Some v => Flags_Set "insecure" v init
  | None => init
  end.

(** ** The temp file's release function *)

(** Modelled from the spec: the release function returned by
    [fsh.TempFile] is defined in the repository's file system package,
    which is not among the sources.  Section 4.5: the release function
    removes the file and is idempotent. *)
Definition remove_file (path : string) (w : World) : World :=
  {| conns := conns w; files := delete path (files w) |}.

Definition run_cleanup (c : CleanupFn) : M unit :=
  call (EvCleanup (cleanup_path c)) ;;;
  modify (remove_file (cleanup_path c)).

(** Calling a function value.  No path of the command calls a nil
    function (lemma [RunE_calls_no_nil_func]); the event stands for the
    run time panic such a call would be. *)
Definition call_func (f : option CleanupFn) : M unit :=
  match f with
  | Some c => run_cleanup c
  | None => call EvNilFuncCall
  end.

Definition open_conn (conn : ClientConn) (w : World) : World :=
  {| conns := conn :: conns w; files := files w |}.

Definition create_file (path : string) (w : World) : World :=
  {| conns := conns w; files := <[path := 0%N]> (files w) |}.

Definition write_file (path : string) (n : N) (w : World) : World :=
  {| conns := conns w; files := alter (N.add n) path (files w) |}.

Section Command.

Context (env : Env).

(** *** Collaborators *)

Definition Flags_GetBool (fs : gmap string bool) (flagname : string)
    : M (result bool) :=
  call (EvGetBool flagname) ;;; ret (Flags_lookup fs flagname).

Definition os_Getenv (var : string) : M string :=
  call (EvGetenv var) ;;; ret (env_Getenv env var).

Definition clientcmd_BuildConfigFromFlags (masterUrl path : string)
    : M (result Config) :=
  call (EvBuildConfigFromFlags masterUrl path) ;;;
  ret (env_BuildConfigFromFlags env masterUrl path).

Definition indexFor (arg : string) : M (result imageindex) :=
  call (EvIndexFor arg) ;;; ret (env_indexFor env arg).

Definition localStorageRef (idx : imageindex) : M (result ImageReference) :=
  call (EvLocalStorageRef idx) ;;; ret (env_localStorageRef env idx).

(** A successful dial leaves an open connection behind; only
    [conn.Close] would take it away. *)
Definition grpc_DialContext (target : string) (creds : tls_Config)
    : M (result ClientConn) :=
  call (EvDialContext target creds) ;;;
  match env_DialContext env target creds with
  | Some err => ret (Err err)
  | None =>
      let conn := {| conn_target := target; conn_creds := creds |} in
      modify (open_conn conn) ;;; ret (Ok conn)
  end.

Definition client_Pull (conn : ClientConn) (pkt : Packet)
    : M (result PullClient) :=
  call (EvPull conn pkt) ;;;
  match env_Pull env conn pkt with
  | Some err => ret (Err err)
  | None => ret (Ok {| stream_conn := conn; stream_request := pkt |})
  end.

Definition createHomeTempDir : M (result FS) :=
  call EvCreateHomeTempDir ;;; ret (env_createHomeTempDir env).

(** [fsh.TempFile()]: the file and the function that releases it.
    Modelled from the spec: the method belongs to the repository's file
    system package, which is not among the sources.  Section 4.5: it
    provides one writable temp file in the working directory, with its
    release function. *)
Definition TempFile (fsh : FS) : M (result (File * CleanupFn)) :=
  call (EvTempFile fsh) ;;;
  match env_TempFile env fsh with
  | Err err => ret (Err err)
  | Ok fp =>
      modify (create_file (file_name fp)) ;;;
      ret (Ok (fp, {| cleanup_path := file_name fp |}))
  end.

Definition progbar_New (label : string) : M ProgressBar :=
  call (EvProgbarNew label) ;;; ret {| pbar_label := label |}.

Definition pbar_Wait (pbar : ProgressBar) : M unit :=
  call (EvPbarWait pbar).

(** [pb.Receive stream fp pbar].  Modelled from the spec: the function
    belongs to the repository's protocol package, which is not among the
    sources.  Section 4.4: it writes the incoming bytes to the temp file,
    and a stream error aborts the transfer, possibly after bytes were
    written. *)
Definition pb_Receive (stream : PullClient) (fp : File)
    (pbar : ProgressBar) : M (option error) :=
  call (EvReceive stream fp) ;;;
  modify (write_file (file_name fp) (fst (env_Receive env stream fp))) ;;;
  ret (snd (env_Receive env stream fp)).

Definition alltransports_ParseImageName (imgname : string)
    : M (result ImageReference) :=
  call (EvParseImageName imgname) ;;; ret (env_ParseImageName env imgname).

Definition signature_NewPolicyContext (pol : Policy)
    : M (result PolicyContext) :=
  call (EvNewPolicyContext pol) ;;;
  match env_NewPolicyContext env pol with
  | Some err => ret (Err err)
  | None => ret (Ok {| ctx_Policy := pol |})
  end.

Definition imgcopy_Image (polctx : PolicyContext)
    (dstref : ImageReference) (srcref : option ImageReference)
    : M (option error) :=
  call (EvCopyImage polctx dstref srcref) ;;;
  ret (env_copy_Image env polctx dstref srcref).

(** *** pullImage *)

(** The three values [pullImage] returns: reference, clean-up function
    and error, each of them possibly nil. *)
Definition pullImage (idx : imageindex) (token : string) (insecure : bool)
    : M (option ImageReference * option CleanupFn * option error) :=
  r <- grpc_DialContext (server idx)
         {| InsecureSkipVerify := insecure |} ;;
  match r with
  | Err err => ret (None, None, Some (wrapError "error connecting" err))
  | Ok conn =>
  let header :=
    {| Name := name idx; Namespace := namespace idx; Token := token |} in
  r <- client_Pull conn {| TestOneof := Packet_Header header |} ;;
  match r with
  | Err err => ret (None, None, Some (wrapError "error pulling" err))
  | Ok stream =>
  r <- createHomeTempDir ;;
  match r with
  | Err err =>
      ret (None, None, Some (wrapError "error creating temp dir" err))
  | Ok fsh =>
  r <- TempFile fsh ;;
  match r with
  | Err err =>
      ret (None, None, Some (wrapError "error creating temp file" err))
  | Ok (fp, cleanup) =>
  pbar <- progbar_New "Pulling" ;;
  defer (pbar_Wait pbar) (
    e <- pb_Receive stream fp pbar ;;
    match e with
    | Some err =>
        run_cleanup cleanup ;;;
        ret (None, None, Some (wrapError "error receiving file" err))
    | None =>
    let str := "docker-archive:" +:+ file_name fp in
    r <- alltransports_ParseImageName str ;;
    match r with
    | Err err =>
        run_cleanup cleanup ;;;
        ret (None, None, Some (wrapError "error parsing reference" err))
    | Ok fromref => ret (Some fromref, Some cleanup, None)
    end
    end)
  end
  end
  end
  end.

(** *** imagepull.RunE *)

Definition RunE (flags : gmap string bool) (args : list string)
    : M (option error) :=
  if bool_decide (length args ≠ 1) then
    ret (Some (errorString "invalid number of arguments"))
  else
  r <- Flags_GetBool flags "insecure" ;;
  match r with
  | Err err => ret (Some err)
  | Ok insecure =>
  kubeconfig <- os_Getenv "KUBECONFIG" ;;
  r <- clientcmd_BuildConfigFromFlags "" kubeconfig ;;
  match r with
  | Err err => ret (Some err)
  | Ok config =>
  if bool_decide (BearerToken config = "") then
    ret (Some (errorString
                 "empty token, you need a kubernetes token to pull"))
  else
  r <- indexFor (nth 0 args "") ;;
  match r with
  | Err err => ret (Some err)
  | Ok tidx =>
  r <- pullImage tidx (BearerToken config) insecure ;;
  match r with
  | (_, _, Some err) => ret (Some err)
  | (srcref, cleanup, None) =>
  defer (call_func cleanup) (
    r <- localStorageRef tidx ;;
    match r with
    | Err err => ret (Some err)
    | Ok dstref =>
    let pol :=
      {| Default := [PRInsecureAcceptAnything]; Transports := [] |} in
    r <- signature_NewPolicyContext pol ;;
    match r with
    | Err err => ret (Some err)
    | Ok polctx =>
    imgcopy_Image polctx dstref srcref
    end
    end)
  end
  end
  end
  end.

End Command.

(** ** Example environments *)

Definition example_index : imageindex :=
  {| server := "svc:443"; namespace := "team-a"; name := "app" |}.

Definition example_env (token : string) (received : N * option error)
    (parse_err copy_err : option error) : Env :=
  {| env_Getenv := fun _ => "/home/dev/.kube/config";
     env_BuildConfigFromFlags := fun _ _ => Ok {| BearerToken := token |};
     env_indexFor := fun arg =>
       if String.eqb arg "svc:443/team-a/app" then Ok example_index
       else Err (errorString "invalid image reference");
     env_localStorageRef := fun idx =>
       Ok {| ref_transport := "containers-storage";
             ref_within := namespace idx +:+ "/" +:+ name idx |};
     env_DialContext := fun _ _ => None;
     env_Pull := fun _ _ => None;
     env_createHomeTempDir := Ok {| tmpdir := "/home/dev/.image/tmp" |};
     env_TempFile := fun fsh =>
       Ok {| file_name := tmpdir fsh +:+ "/1.tar" |};
     env_Receive := fun _ _ => received;
     env_ParseImageName := fun s =>
       match parse_err with
       | Some e => Err e
       | None => Ok {| ref_transport := "docker-archive"; ref_within := s |}
       end;
     env_NewPolicyContext := fun _ => None;
     env_copy_Image := fun _ _ _ => copy_err |}.

(** A 10 MiB transfer that is committed. *)
Definition env_success : Env :=
  example_env "s3cr3t" (10485760%N, None) None None.

(** The stream breaks after three bytes. *)
Definition env_receive_fails : Env :=
  example_env "s3cr3t" (3%N, Some (errorString "unexpected EOF")) None None.

(** The archive reference cannot be built. *)
Definition env_parse_fails : Env :=
  example_env "s3cr3t" (10485760%N, None)
    (Some (errorString "unknown transport")) None.

(** The copy into the local store fails. *)
Definition env_commit_fails : Env :=
  example_env "s3cr3t" (10485760%N, None) None
    (Some (errorString "writing blob: no space left on device")).

(** The configuration has no bearer token. *)
Definition env_no_token : Env := example_env "" (0%N, None) None None.

Definition example_conn (insecure : bool) : ClientConn :=
  {| conn_target := "svc:443";
     conn_creds := {| InsecureSkipVerify := insecure |} |}.

Definition example_stream (insecure : bool) : PullClient :=
  {| stream_conn := example_conn insecure;
     stream_request :=
       {| TestOneof :=
            Packet_Header
              {| Name := "app"; Namespace := "team-a";
                 Token := "s3cr3t" |} |} |}.

Definition example_file : File :=
  {| file_name := "/home/dev/.image/tmp/1.tar" |}.

(** ** Properties of runs *)

(** The error [RunE] returns for a configuration without bearer token. *)
Definition empty_token_error : error :=
  errorString "empty token, you need a kubernetes token to pull".



(** What it takes for no connection to outlive a call: every connection
    open after it was open before it. *)
Definition no_connection_outlives (before after : World) : Prop :=
  forall conn, conn ∈ conns after -> conn ∈ conns before.

(** How often a kind of call occurs in a trace. *)
Definition count_events (kind : Event -> bool) (tr : list Event) : nat :=
  length (List.filter kind tr).

Definition is_dial (e : Event) : bool :=
  match e with EvDialContext _ _ => true | _ => false end.

Definition is_pull (e : Event) : bool :=
  match e with EvPull _ _ => true | _ => false end.

Definition is_temp_file (e : Event) : bool :=
  match e with EvTempFile _ => true | _ => false end.

Definition is_receive (e : Event) : bool :=
  match e with EvReceive _ _ => true | _ => false end.

Definition is_copy (e : Event) : bool :=
  match e with EvCopyImage _ _ _ => true | _ => false end.

Definition is_progbar_new (e : Event) : bool :=
  match e with EvProgbarNew _ => true | _ => false end.

Definition is_pbar_wait (e : Event) : bool :=
  match e with EvPbarWait _ => true | _ => false end.

(** The calls of [RunE] that come before [pullImage], for a kubeconfig
    path [path] and a coordinate [arg]. *)
Definition setup_calls (path arg : string) : list Event :=
  [EvGetBool "insecure"; EvGetenv "KUBECONFIG";
   EvBuildConfigFromFlags "" path; EvIndexFor arg].

(** Example environments that differ from another in one outcome. *)
Definition with_DialContext (dial : string -> tls_Config -> option error)
    (e : Env) : Env :=
  {| env_Getenv := env_Getenv e;
     env_BuildConfigFromFlags := env_BuildConfigFromFlags e;
     env_indexFor := env_indexFor e;
     env_localStorageRef := env_localStorageRef e;
     env_DialContext := dial;
     env_Pull := env_Pull e;
     env_createHomeTempDir := env_createHomeTempDir e;
     env_TempFile := env_TempFile e;
     env_Receive := env_Receive e;
     env_ParseImageName := env_ParseImageName e;
     env_NewPolicyContext := env_NewPolicyContext e;
     env_copy_Image := env_copy_Image e |}.

Definition with_TempFile (tempfile : FS -> result File) (e : Env) : Env :=
  {| env_Getenv := env_Getenv e;
     env_BuildConfigFromFlags := env_BuildConfigFromFlags e;
     env_indexFor := env_indexFor e;
     env_localStorageRef := env_localStorageRef e;
     env_DialContext := env_DialContext e;
     env_Pull := env_Pull e;
     env_createHomeTempDir := env_createHomeTempDir e;
     env_TempFile := tempfile;
     env_Receive := env_Receive e;
     env_ParseImageName := env_ParseImageName e;
     env_NewPolicyContext := env_NewPolicyContext e;
     env_copy_Image := env_copy_Image e |}.

Definition with_BuildConfigFromFlags
    (build : string -> string -> result Config) (e : Env) : Env :=
  {| env_Getenv := env_Getenv e;
     env_BuildConfigFromFlags := build;
     env_indexFor := env_indexFor e;
     env_localStorageRef := env_localStorageRef e;
     env_DialContext := env_DialContext e;
     env_Pull := env_Pull e;
     env_createHomeTempDir := env_createHomeTempDir e;
     env_TempFile := env_TempFile e;
     env_Receive := env_Receive e;
     env_ParseImageName := env_ParseImageName e;
     env_NewPolicyContext := env_NewPolicyContext e;
     env_copy_Image := env_copy_Image e |}.


(** The server refuses the connection. *)
Definition env_dial_fails : Env :=
  with_DialContext (fun _ _ => Some (errorString "connection refused"))
    env_success.

(** The temp file cannot be created. *)
Definition env_temp_file_fails : Env :=
  with_TempFile (fun _ => Err (errorString "no space left on device"))
    env_success.

(** The kubeconfig cannot be read. *)
Definition env_no_kubeconfig : Env :=
  with_BuildConfigFromFlags
    (fun _ _ => Err (errorString "invalid configuration")) env_success.


(** A world in which another file lies in the temp directory. *)
Definition world_with_other_file : World :=
  {| conns := []; files := {[ "/home/dev/.image/tmp/0.tar" := 7%N ]} |}.

(** * imgctrl: the start-up of the controllers

    A shallow embedding of [main] of [cmd/imgctrl/main.go], in the same
    style: a chronological trace of the calls [main] makes, an environment
    for their outcomes, and, since [klog.Fatalf], [klog.Fatal] and
    [log.Fatalf] end the process where they are called, a run that either
    exits there or goes on. *)
Module Imgctrl.

Inductive Signal : Type := SIGTERM | SIGINT.

(** [kubernetes.Clientset] and the image [versioned.Clientset], each made
    from a configuration. *)
Record CoreClient : Type := { corcli_config : Config }.
Record ImageClient : Type := { imgcli_config : Config }.

(** A [time.Duration], in nanoseconds. *)
Definition time_Minute : Z := 60000000000%Z.

(** The shared informer factories, made from a client and a resync
    period. *)
Record CoreInformerFactory : Type := {
  corinf_client : CoreClient;
  corinf_resync : Z
}.

Record ImageInformerFactory : Type := {
  imginf_client : ImageClient;
  imginf_resync : Z
}.

Inductive Factory : Type :=
| CoreFactory (f : CoreInformerFactory)
| ImageFactory (f : ImageInformerFactory).

(** The informers whose [HasSynced] is waited for, each with the factory
    it is taken from. *)
Inductive Informer : Type :=
| ConfigMaps (f : CoreInformerFactory)
| Secrets (f : CoreInformerFactory)
| Images (f : ImageInformerFactory)
| ImageImports (f : ImageInformerFactory).

(** The values made by the constructors of the [services] and
    [controllers] packages, with the arguments they are made from. *)
Inductive Service : Type :=
| services_NewImageImport (corinf : CoreInformerFactory)
    (imgcli : ImageClient) (imginf : ImageInformerFactory)
| services_NewImage (corinf : CoreInformerFactory)
    (imgcli : ImageClient) (imginf : ImageInformerFactory)
| services_NewImageIO (corinf : CoreInformerFactory)
    (imgcli : ImageClient) (imginf : ImageInformerFactory)
| services_NewUser (corcli : CoreClient).

Inductive Controller : Type :=
| controllers_NewImageImport (impsvc : Service)
| controllers_NewImage (imgsvc : Service)
| controllers_NewMutatingWebHook (impsvc imgsvc : Service)
| controllers_NewImageIO (tiosvc usrsvc : Service)
| controllers_NewMetric.

(** [starter.New corcli ctrls...]. *)
Record Starter : Type := {
  starter_client : CoreClient;
  starter_controllers : list Controller
}.

Definition starter_New (corcli : CoreClient) (ctrls : list Controller)
    : Starter :=
  {| starter_client := corcli; starter_controllers := ctrls |}.

(** The calls of [main]. *)
Inductive Event : Type :=
| EvKlogInitFlags
| EvFlagParse
| EvNotifyContext (sigs : list Signal)
| EvGoStopOnDone
| EvKlogInfo (args : list string)
| EvGetenv (var : string)
| EvBuildConfigFromFlags (masterUrl kubeconfigPath : string)
| EvImageNewForConfig (config : Config)
| EvCoreNewForConfig (config : Config)
| EvFactoryStart (f : Factory)
| EvWaitForCacheSync (informers : list Informer)
| EvStarterStart (st : Starter) (leaderElectionID : string)
| EvKlogErrorf (format : string) (err : error).

(** The calls that end the process. *)
Inductive Exit : Type :=
| klog_Fatalf (format : string) (err : error)
| klog_Fatal (msg : string)
| log_Fatalf (format : string) (err : error).

Record Env : Type := {
  env_Getenv : string -> string;
  env_BuildConfigFromFlags : string -> string -> result Config;
  env_image_NewForConfig : Config -> option error;
  env_core_NewForConfig : Config -> option error;
  env_WaitForCacheSync : list Informer -> bool;
  env_Start : Starter -> string -> option error
}.

(** A run of the process: the calls made, and either the exit that ended
    it or the value it went on with. *)
Record Proc (A : Type) : Type := {
  calls : list Event;
  outcome : Exit + A
}.
Arguments calls {A} p.
Arguments outcome {A} p.

Definition ret {A : Type} (a : A) : Proc A :=
  {| calls := []; outcome := inr a |}.

Definition fatal {A : Type} (x : Exit) : Proc A :=
  {| calls := []; outcome := inl x |}.

Definition bind {A B : Type} (m : Proc A) (k : A -> Proc B) : Proc B :=
  match m with
  | {| calls := t1; outcome := inl x |} =>
      {| calls := t1; outcome := inl x |}
  | {| calls := t1; outcome := inr a |} =>
      match k a with
      | {| calls := t2; outcome := o |} =>
          {| calls := t1 ++ t2; outcome := o |}
      end
  end.

Declare Scope proc_scope.
Delimit Scope proc_scope with proc.
Notation "x <- m ;; k" := (bind m (fun x => k))
  (at level 100, m at next level, right associativity) : proc_scope.
Notation "m ;;; k" := (bind m (fun _ => k))
  (at level 100, right associativity) : proc_scope.
Local Open Scope proc_scope.

Definition call (e : Event) : Proc unit :=
  {| calls := [e]; outcome := inr tt |}.

(** [var Version = "v0.0.0"], set at compile time. *)
Definition Version : string := "v0.0.0".

Section Main.

Context (env : Env) (version : string).

Definition klog_Info (args : list string) : Proc unit :=
  call (EvKlogInfo args).

Definition klog_Errorf (format : string) (err : error) : Proc unit :=
  call (EvKlogErrorf format err).

Definition os_Getenv (var : string) : Proc string :=
  call (EvGetenv var) ;;; ret (env_Getenv env var).

Definition clientcmd_BuildConfigFromFlags (masterUrl path : string)
    : Proc (result Config) :=
  call (EvBuildConfigFromFlags masterUrl path) ;;;
  ret (env_BuildConfigFromFlags env masterUrl path).

Definition iimgcli_NewForConfig (config : Config)
    : Proc (result ImageClient) :=
  call (EvImageNewForConfig config) ;;;
  match env_image_NewForConfig env config with
  | Some err => ret (Err err)
  | None => ret (Ok {| imgcli_config := config |})
  end.

Definition corecli_NewForConfig (config : Config)
    : Proc (result CoreClient) :=
  call (EvCoreNewForConfig config) ;;;
  match env_core_NewForConfig env config with
  | Some err => ret (Err err)
  | None => ret (Ok {| corcli_config := config |})
  end.

Definition Factory_Start (f : Factory) : Proc unit :=
  call (EvFactoryStart f).

Definition cache_WaitForCacheSync (informers : list Informer) : Proc bool :=
  call (EvWaitForCacheSync informers) ;;;
  ret (env_WaitForCacheSync env informers).

Definition Starter_Start (st : Starter) (leaderElectionID : string)
    : Proc (option error) :=
  call (EvStarterStart st leaderElectionID) ;;;
  ret (env_Start env st leaderElectionID).

Definition main : Proc unit :=
  call EvKlogInitFlags ;;;
  call EvFlagParse ;;;
  call (EvNotifyContext [SIGTERM; SIGINT]) ;;;
  call EvGoStopOnDone ;;;
  klog_Info ["starting shipwright image controller..."] ;;;
  klog_Info ["version "; version] ;;;
  kubeconfig <- os_Getenv "KUBECONFIG" ;;
  r <- clientcmd_BuildConfigFromFlags "" kubeconfig ;;
  match r with
  | Err err => fatal (klog_Fatalf "unable to read kubeconfig: %v" err)
  | Ok config =>
  r <- iimgcli_NewForConfig config ;;
  match r with
  | Err err =>
      fatal (log_Fatalf "unable to create image image client: %v" err)
  | Ok imgcli =>
  let imginf :=
    {| imginf_client := imgcli; imginf_resync := time_Minute |} in
  r <- corecli_NewForConfig config ;;
  match r with
  | Err err => fatal (log_Fatalf "unable to create core client: %v" err)
  | Ok corcli =>
  let corinf :=
    {| corinf_client := corcli; corinf_resync := time_Minute |} in
  let impsvc := services_NewImageImport corinf imgcli imginf in
  let imgsvc := services_NewImage corinf imgcli imginf in
  let tiosvc := services_NewImageIO corinf imgcli imginf in
  let usrsvc := services_NewUser corcli in
  let imctrl := controllers_NewImageImport impsvc in
  let itctrl := controllers_NewImage imgsvc in
  let mtctrl := controllers_NewMutatingWebHook impsvc imgsvc in
  let tioctr := controllers_NewImageIO tiosvc usrsvc in
  let moctrl := controllers_NewMetric in
  klog_Info ["waiting for caches to sync ..."] ;;;
  Factory_Start (CoreFactory corinf) ;;;
  Factory_Start (ImageFactory imginf) ;;;
  synced <- cache_WaitForCacheSync
              [ConfigMaps corinf; Secrets corinf;
               Images imginf; ImageImports imginf] ;;
  if negb synced then fatal (klog_Fatal "caches not syncing") else
  klog_Info ["caches in sync, moving on."] ;;;
  let st := starter_New corcli [mtctrl; itctrl; moctrl; tioctr; imctrl] in
  e <- Starter_Start st "imgctrl-leader-election" ;;
  match e with
  | Some err => klog_Errorf "unable to start controllers: %s" err
  | None => ret tt
  end
  end
  end
  end.

End Main.

(** An example environment: whether the kubeconfig can be read, whether
    the caches sync, and what starting the controllers returns. *)
Definition example_env (config : result Config) (synced : bool)
    (started : option error) : Env :=
  {| env_Getenv := fun _ => "/etc/imgctrl/kubeconfig";
     env_BuildConfigFromFlags := fun _ _ => config;
     env_image_NewForConfig := fun _ => None;
     env_core_NewForConfig := fun _ => None;
     env_WaitForCacheSync := fun _ => synced;
     env_Start := fun _ _ => started |}.

Definition example_config : Config := {| BearerToken := "s3cr3t" |}.

Definition example_corinf : CoreInformerFactory :=
  {| corinf_client := {| corcli_config := example_config |};
     corinf_resync := time_Minute |}.

Definition example_imginf : ImageInformerFactory :=
  {| imginf_client := {| imgcli_config := example_config |};
     imginf_resync := time_Minute |}.

Definition example_informers : list Informer :=
  [ConfigMaps example_corinf; Secrets example_corinf;
   Images example_imginf; ImageImports example_imginf].

Definition example_impsvc : Service :=
  services_NewImageImport example_corinf
    {| imgcli_config := example_config |} example_imginf.

Definition example_imgsvc : Service :=
  services_NewImage example_corinf
    {| imgcli_config := example_config |} example_imginf.

Definition example_tiosvc : Service :=
  services_NewImageIO example_corinf
    {| imgcli_config := example_config |} example_imginf.

Definition example_usrsvc : Service :=
  services_NewUser {| corcli_config := example_config |}.

Definition example_starter : Starter :=
  starter_New {| corcli_config := example_config |}
    [controllers_NewMutatingWebHook example_impsvc example_imgsvc;
     controllers_NewImage example_imgsvc;
     controllers_NewMetric;
     controllers_NewImageIO example_tiosvc example_usrsvc;
     controllers_NewImageImport example_impsvc].

End Imgctrl.

(** ** Proof automation *)

Ltac unfold_actions :=
  unfold RunE, pullImage, defer, call_func, run_cleanup,
    Flags_GetBool, os_Getenv, clientcmd_BuildConfigFromFlags, indexFor,
    localStorageRef, grpc_DialContext, client_Pull, createHomeTempDir,
    TempFile, progbar_New, pbar_Wait, pb_Receive,
    alltransports_ParseImageName, signature_NewPolicyContext,
    imgcopy_Image.

Ltac step_actions :=
  cbv beta iota zeta delta
    [bind ret call modify app fst snd value world trace
     open_conn create_file write_file remove_file];
  cbn [conns files cleanup_path].

(** Follows the run through every outcome the environment can give. *)
Ltac case_env_step :=
  match goal with
  | |- context [bool_decide ?P] => destruct (bool_decide_reflect P)
  | |- context [Flags_lookup ?fs ?n] => destruct (Flags_lookup fs n) eqn:?
  | |- context [env_BuildConfigFromFlags ?e ?a ?b] =>
      destruct (env_BuildConfigFromFlags e a b) eqn:?
  | |- context [env_indexFor ?e ?a] => destruct (env_indexFor e a) eqn:?
  | |- context [env_localStorageRef ?e ?a] =>
      destruct (env_localStorageRef e a) eqn:?
  | |- context [env_DialContext ?e ?a ?b] =>
      destruct (env_DialContext e a b) eqn:?
  | |- context [env_Pull ?e ?a ?b] => destruct (env_Pull e a b) eqn:?
  | |- context [env_createHomeTempDir ?e] =>
      destruct (env_createHomeTempDir e) eqn:?
  | |- context [env_TempFile ?e ?a] => destruct (env_TempFile e a) eqn:?
  | |- context [env_Receive ?e ?a ?b] =>
      destruct (env_Receive e a b) as [? [?|]] eqn:?
  | |- context [env_ParseImageName ?e ?a] =>
      destruct (env_ParseImageName e a) eqn:?
  | |- context [env_NewPolicyContext ?e ?a] =>
      destruct (env_NewPolicyContext e a) eqn:?
  | |- context [env_copy_Image ?e ?a ?b ?c] =>
      destruct (env_copy_Image e a b c) eqn:?
  end.

Ltac case_env := repeat (step_actions; case_env_step); step_actions.

Ltac run := unfold_actions; case_env.

(** Splits [H : e ∈ l], for a trace [l] that is written out, into one goal
    per event of [l] that [e] can be. *)
Ltac in_trace H :=
  repeat (apply elem_of_cons in H as [H | H];
          [first [discriminate H | simplify_eq H; intros; subst] |]);
  try solve [apply elem_of_nil in H; contradiction].

(** Two outcomes recorded for the same call are the same outcome. *)
Ltac agree :=
  try congruence;
  simplify_eq;
  repeat match goal with
  | H1 : ?t = _, H2 : ?t = _ |- _ =>
      rewrite H1 in H2; first [discriminate H2 | simplify_eq]
  end.

Ltac not_in_trace :=
  let H := fresh in
  intros H;
  repeat (apply elem_of_cons in H as [H | H]; [discriminate H |]);
  apply elem_of_nil in H; exact H.

(** Closes the branch of a run on one argument in which the argument
    count is found wrong. *)
Ltac one_arg :=
  try (exfalso;
       match goal with H : length _ ≠ 1 |- _ => apply H; reflexivity end).

(** The same for [Imgctrl.main]. *)
Ltac step_main :=
  cbv beta iota zeta delta
    [Imgctrl.bind Imgctrl.ret Imgctrl.fatal Imgctrl.call Imgctrl.calls
     Imgctrl.outcome Imgctrl.starter_New app negb].

Ltac case_main_step :=
  match goal with
  | |- context [Imgctrl.env_BuildConfigFromFlags ?e ?a ?b] =>
      destruct (Imgctrl.env_BuildConfigFromFlags e a b) eqn:?
  | |- context [Imgctrl.env_image_NewForConfig ?e ?a] =>
      destruct (Imgctrl.env_image_NewForConfig e a) eqn:?
  | |- context [Imgctrl.env_core_NewForConfig ?e ?a] =>
      destruct (Imgctrl.env_core_NewForConfig e a) eqn:?
  | |- context [Imgctrl.env_WaitForCacheSync ?e ?a] =>
      destruct (Imgctrl.env_WaitForCacheSync e a) eqn:?
  | |- context [Imgctrl.env_Start ?e ?a ?b] =>
      destruct (Imgctrl.env_Start e a b) eqn:?
  end.

Ltac run_main :=
  unfold Imgctrl.main, Imgctrl.klog_Info, Imgctrl.klog_Errorf,
    Imgctrl.os_Getenv, Imgctrl.clientcmd_BuildConfigFromFlags,
    Imgctrl.iimgcli_NewForConfig, Imgctrl.corecli_NewForConfig,
    Imgctrl.Factory_Start, Imgctrl.cache_WaitForCacheSync,
    Imgctrl.Starter_Start;
  repeat (step_main; case_main_step);
  step_main.

(** Finds an event in a trace that is written out. *)
Ltac mem_trace :=
  solve [repeat first [apply list_elem_of_here | apply list_elem_of_further]].


(** ** Helper lemmas *)

Lemma parsed_flags_insecure (given : option bool) :
  Flags_lookup (parsed_flags given) "insecure" = Ok (default false given).
Proof. destruct given as [[]|]; reflexivity. Qed.

(** [pullImage] starts by dialing: a run without a dial has not entered
    it. *)
Lemma pullImage_dials_first (env : Env) (idx : imageindex) (token : string)
    (insecure : bool) (w : World) :
  exists rest,
    trace (pullImage env idx token insecure w) =
      EvDialContext (server idx) {| InsecureSkipVerify := insecure |} :: rest.
Proof. run; eexists; reflexivity. Qed.

(** The three values of [pullImage]: either an error alone, or a
    reference and the clean-up function for a temp file. *)
Lemma pullImage_error_or_cleanup (env : Env) (idx : imageindex)
    (token : string) (insecure : bool) (w : World) :
  (exists err, value (pullImage env idx token insecure w) =
     (None, None, Some err)) \/
  (exists ref c, value (pullImage env idx token insecure w) =
     (Some ref, Some c, None)).
Proof. run; eauto. Qed.

(** The release function is idempotent: a second call changes nothing. *)
Lemma run_cleanup_idempotent (c : CleanupFn) (w : World) :
  world (run_cleanup c (world (run_cleanup c w))) = world (run_cleanup c w).
Proof.
  unfold run_cleanup. step_actions. f_equal. apply delete_delete_eq.
Qed.

(** No run of the command calls a nil function value. *)
Lemma RunE_calls_no_nil_func (env : Env) (flags : gmap string bool)
    (args : list string) (w : World) :
  EvNilFuncCall ∉ trace (RunE env flags args w).
Proof. run; not_in_trace. Qed.

(** ** The command line *)

(** C8: with an argument list whose length is not one, [RunE] returns the
    error "invalid number of arguments" without having made a single call:
    no flag is read, no configuration loaded, nothing dialed and no file
    touched. *)
Theorem RunE_wrong_arity (env : Env) (flags : gmap string bool)
    (args : list string) (w : World) :
  length args ≠ 1 ->
  RunE env flags args w =
    {| value := Some (errorString "invalid number of arguments");
       world := w;
       trace := [] |}.
Proof.
  intros Hlen. run; [reflexivity | contradiction..].
Qed.

Lemma RunE_wrong_arity_witness :
  RunE env_success (parsed_flags None) ["svc:443/team-a/app"; "extra"]
    empty_world =
    {| value := Some (errorString "invalid number of arguments");
       world := empty_world;
       trace := [] |}.
Proof.
  apply RunE_wrong_arity. simpl. lia.
Defined.

(** ** Credentials *)

(** The run of [RunE] on one argument and an empty token. *)
Lemma empty_token_run (env : Env) (given : option bool)
    (args : list string) (cfg : Config) (w : World) :
  length args = 1 ->
  env_BuildConfigFromFlags env "" (env_Getenv env "KUBECONFIG") = Ok cfg ->
  BearerToken cfg = "" ->
  RunE env (parsed_flags given) args w =
    {| value := Some empty_token_error;
       world := w;
       trace := [EvGetBool "insecure"; EvGetenv "KUBECONFIG";
                 EvBuildConfigFromFlags "" (env_Getenv env "KUBECONFIG")] |}.
Proof.
  intros Hlen Hcfg Htok.
  unfold RunE, Flags_GetBool, os_Getenv, clientcmd_BuildConfigFromFlags.
  destruct (bool_decide_reflect (length args ≠ 1)); [contradiction |].
  step_actions. rewrite parsed_flags_insecure. step_actions.
  rewrite Hcfg. step_actions.
  destruct (bool_decide_reflect (BearerToken cfg = ""));
    [reflexivity | contradiction].
Qed.

(** C3: when the configuration the command loads has an empty bearer
    token, no run of [RunE] dials, opens a stream or changes the world,
    and every run ends in an error; [pullImage], whose first call is the
    dial, is not entered.  With one argument, so that the configuration
    is loaded at all, the error is the empty token error, returned after
    reading only the flag, the environment variable and the
    configuration. *)
Theorem RunE_empty_token (env : Env) (given : option bool)
    (args : list string) (cfg : Config) (w : World) :
  env_BuildConfigFromFlags env "" (env_Getenv env "KUBECONFIG") = Ok cfg ->
  BearerToken cfg = "" ->
  (exists err, value (RunE env (parsed_flags given) args w) = Some err)
  /\ (length args = 1 ->
      value (RunE env (parsed_flags given) args w) = Some empty_token_error
      /\ trace (RunE env (parsed_flags given) args w) =
           [EvGetBool "insecure"; EvGetenv "KUBECONFIG";
            EvBuildConfigFromFlags "" (env_Getenv env "KUBECONFIG")])
  /\ (forall target creds,
        EvDialContext target creds
          ∉ trace (RunE env (parsed_flags given) args w))
  /\ (forall conn pkt,
        EvPull conn pkt ∉ trace (RunE env (parsed_flags given) args w))
  /\ world (RunE env (parsed_flags given) args w) = w.
Proof.
  intros Hcfg Htok.
  destruct (decide (length args = 1)) as [Hlen | Hlen].
  - rewrite (empty_token_run env given args cfg w Hlen Hcfg Htok).
    cbn [value world trace].
    repeat split; eauto; intros; not_in_trace.
  - unfold RunE.
    destruct (bool_decide_reflect (length args ≠ 1)); [| contradiction].
    cbv [ret value world trace].
    repeat split; eauto; intros; try contradiction; not_in_trace.
Qed.

Lemma RunE_empty_token_witness :
  value (RunE env_no_token (parsed_flags (Some true))
           ["svc:443/team-a/app"] empty_world) = Some empty_token_error
  /\ forall target creds,
       EvDialContext target creds ∉
         trace (RunE env_no_token
                  (parsed_flags (Some true)) ["svc:443/team-a/app"]
                  empty_world).
Proof.
  destruct (RunE_empty_token env_no_token
              (Some true) ["svc:443/team-a/app"] {| BearerToken := "" |}
              empty_world) as (_ & Hval & Hdial & _).
  - reflexivity.
  - reflexivity.
  - split; [apply Hval; reflexivity | exact Hdial].
Defined.

(** C10: the token is checked before the coordinate is parsed: when the
    configuration has an empty bearer token, no run of [RunE] calls
    [indexFor], so no error of the coordinate grammar can be reported,
    and with one argument the run returns the empty token error, whatever
    [indexFor] would have said of the argument.  And when [pullImage]
    returns an error, the reference and the clean-up function it returns
    with it are nil. *)
Theorem token_check_precedes_parsing_and_error_returns_nil (env : Env) :
  (forall (given : option bool) (args : list string) (cfg : Config)
          (w : World),
      env_BuildConfigFromFlags env "" (env_Getenv env "KUBECONFIG") = Ok cfg ->
      BearerToken cfg = "" ->
      (forall arg,
         EvIndexFor arg ∉ trace (RunE env (parsed_flags given) args w))
      /\ (length args = 1 ->
          value (RunE env (parsed_flags given) args w) =
            Some empty_token_error))
  /\ (forall (idx : imageindex) (token : string) (insecure : bool)
             (w : World) (err : error),
        snd (value (pullImage env idx token insecure w)) = Some err ->
        value (pullImage env idx token insecure w) = (None, None, Some err)).
Proof.
  split.
  - intros given args cfg w Hcfg Htok.
    destruct (decide (length args = 1)) as [Hlen | Hlen].
    + rewrite (empty_token_run env given args cfg w Hlen Hcfg Htok).
      cbn [value trace]. split; [intros; not_in_trace | reflexivity].
    + unfold RunE.
      destruct (bool_decide_reflect (length args ≠ 1)); [| contradiction].
      cbv [ret value trace].
      split; [intros; not_in_trace | intros; contradiction].
  - intros idx token insecure w err.
    destruct (pullImage_error_or_cleanup env idx token insecure w)
      as [(e & ->) | (ref & c & ->)]; simpl; congruence.
Qed.

Lemma token_check_precedes_parsing_and_error_returns_nil_witness :
  env_indexFor env_no_token "team-a" =
    Err (errorString "invalid image reference")
  /\ value (RunE env_no_token (parsed_flags None)
              ["team-a"] empty_world) = Some empty_token_error
  /\ value (pullImage
              env_receive_fails
              example_index "s3cr3t" false empty_world) =
       (None, None,
        Some (wrapError "error receiving file" (errorString "unexpected EOF"))).
Proof.
  split; [reflexivity |]. split.
  - apply (token_check_precedes_parsing_and_error_returns_nil env_no_token)
      with (cfg := {| BearerToken := "" |}); reflexivity.
  - apply (token_check_precedes_parsing_and_error_returns_nil
             env_receive_fails).
    reflexivity.
Defined.

(** ** The transfer *)

(** C2: when the receive step is reached (so the temp file exists) and
    fails, after having written any number [n] of bytes, [pullImage] calls
    the file's release function, returns the error alone, and never calls
    [ParseImageName]: no reference is made from the file.  With the
    release function removing the file, the file is gone at the return. *)
Theorem pullImage_receive_error (env : Env) (idx : imageindex)
    (token : string) (insecure : bool) (w : World)
    (stream : PullClient) (fp : File) (n : N) (err : error) :
  EvReceive stream fp ∈ trace (pullImage env idx token insecure w) ->
  env_Receive env stream fp = (n, Some err) ->
  value (pullImage env idx token insecure w) =
    (None, None, Some (wrapError "error receiving file" err))
  /\ (exists pre post,
        trace (pullImage env idx token insecure w) =
          pre ++ EvReceive stream fp :: EvCleanup (file_name fp) :: post)
  /\ (forall s,
        EvParseImageName s ∉ trace (pullImage env idx token insecure w))
  /\ files (world (pullImage env idx token insecure w)) !! file_name fp = None.
Proof.
  intros Hin Hrecv. revert Hin. run; intros Hin; in_trace Hin;
    try congruence.
  assert (e = err) as -> by congruence.
  split; [reflexivity |]. split.
  { eexists [_; _; _; _; _]. eexists. reflexivity. }
  split; [intros; not_in_trace | apply lookup_delete_eq].
Qed.

Lemma pullImage_receive_error_witness :
  value (pullImage
           env_receive_fails
           example_index "s3cr3t" false empty_world) =
    (None, None,
     Some (wrapError "error receiving file" (errorString "unexpected EOF")))
  /\ files (world (pullImage
             env_receive_fails
             example_index "s3cr3t" false empty_world))
       !! "/home/dev/.image/tmp/1.tar" = None.
Proof.
  destruct (pullImage_receive_error env_receive_fails
              example_index "s3cr3t" false empty_world
              (example_stream false) example_file
              3%N (errorString "unexpected EOF"))
    as (Hval & _ & _ & Hfile).
  - vm_compute. do 5 apply list_elem_of_further. apply list_elem_of_here.
  - reflexivity.
  - split; [exact Hval | exact Hfile].
Defined.

(** C5: once the progress sink exists, the last thing [pullImage] does on
    any path, success or failure, is to wait for that sink: the wait is
    the final call of the run. *)
Theorem pullImage_waits_for_sink (env : Env) (idx : imageindex)
    (token : string) (insecure : bool) (w : World) (label : string) :
  EvProgbarNew label ∈ trace (pullImage env idx token insecure w) ->
  last (trace (pullImage env idx token insecure w)) =
    Some (EvPbarWait {| pbar_label := label |})
  /\ exists pre mid,
       trace (pullImage env idx token insecure w) =
         pre ++ EvProgbarNew label :: mid ++
           [EvPbarWait {| pbar_label := label |}].
Proof.
  run; intros Hin; in_trace Hin;
    (split; [reflexivity | eexists [_; _; _; _]]);
    first [ by eexists [_; _] | by eexists [_; _; _] ].
Qed.

Lemma pullImage_waits_for_sink_witness :
  last (trace (pullImage env_receive_fails example_index "s3cr3t" false
                 empty_world)) =
    Some (EvPbarWait {| pbar_label := "Pulling" |})
  /\ last (trace (pullImage env_success example_index "s3cr3t" false
                    empty_world)) =
       Some (EvPbarWait {| pbar_label := "Pulling" |}).
Proof.
  split.
  - apply (pullImage_waits_for_sink env_receive_fails example_index
             "s3cr3t" false empty_world "Pulling").
    vm_compute. do 4 apply list_elem_of_further. apply list_elem_of_here.
  - apply (pullImage_waits_for_sink env_success example_index
             "s3cr3t" false empty_world "Pulling").
    vm_compute. do 4 apply list_elem_of_further. apply list_elem_of_here.
Defined.

(** C6: [ParseImageName] is called only right after a receive that
    returned no error, and always on "docker-archive:" followed by the
    name of the temp file that receive wrote.  When the call fails,
    [pullImage] releases the file and returns the error alone; when it
    succeeds, its result is the reference [pullImage] returns.  A
    reference [pullImage] returns always comes from such a call. *)
Theorem pullImage_archive_reference (env : Env) (idx : imageindex)
    (token : string) (insecure : bool) (w : World) :
  (forall s,
     EvParseImageName s ∈ trace (pullImage env idx token insecure w) ->
     exists pre stream fp post,
       trace (pullImage env idx token insecure w) =
         pre ++ EvReceive stream fp :: EvParseImageName s :: post
       /\ snd (env_Receive env stream fp) = None
       /\ s = "docker-archive:" +:+ file_name fp
       /\ (forall e,
             env_ParseImageName env s = Err e ->
             value (pullImage env idx token insecure w) =
               (None, None, Some (wrapError "error parsing reference" e))
             /\ EvCleanup (file_name fp) ∈ post
             /\ files (world (pullImage env idx token insecure w))
                  !! file_name fp = None)
       /\ (forall ref,
             env_ParseImageName env s = Ok ref ->
             value (pullImage env idx token insecure w) =
               (Some ref, Some {| cleanup_path := file_name fp |}, None)))
  /\ (forall ref,
        fst (fst (value (pullImage env idx token insecure w))) = Some ref ->
        exists s,
          EvParseImageName s ∈ trace (pullImage env idx token insecure w)
          /\ env_ParseImageName env s = Ok ref).
Proof.
  run; (split; [intros s Hin; in_trace Hin | intros ref Href; try discriminate]).
  - eexists [_; _; _; _; _], _, _, _.
    split; [reflexivity |]. rewrite Heqp. cbn [snd].
    repeat split; intros; congruence.
  - injection Href as ->. eexists. split; [| eassumption].
    do 6 apply list_elem_of_further. apply list_elem_of_here.
  - eexists [_; _; _; _; _], _, _, _.
    split; [reflexivity |]. rewrite Heqp. cbn [snd].
    split; [reflexivity |]. split; [reflexivity |].
    split; [| intros; congruence].
    intros e' He'. assert (e' = e) as -> by congruence.
    split; [reflexivity |].
    split; [apply list_elem_of_here | apply lookup_delete_eq].
Qed.

Lemma pullImage_archive_reference_witness :
  exists pre stream fp post,
    trace (pullImage env_parse_fails example_index "s3cr3t" true
             empty_world) =
      pre ++ EvReceive stream fp
        :: EvParseImageName "docker-archive:/home/dev/.image/tmp/1.tar"
        :: post
    /\ "docker-archive:/home/dev/.image/tmp/1.tar" =
         "docker-archive:" +:+ file_name fp
    /\ value (pullImage env_parse_fails example_index "s3cr3t" true
                empty_world) =
         (None, None,
          Some (wrapError "error parsing reference"
                  (errorString "unknown transport"))).
Proof.
  destruct (pullImage_archive_reference env_parse_fails example_index
              "s3cr3t" true empty_world) as [Hparse _].
  destruct (Hparse "docker-archive:/home/dev/.image/tmp/1.tar")
    as (pre & stream & fp & post & Htr & _ & Hs & Herr & _).
  - vm_compute. do 6 apply list_elem_of_further. apply list_elem_of_here.
  - exists pre, stream, fp, post.
    split; [exact Htr |]. split; [exact Hs |].
    apply (Herr (errorString "unknown transport")). reflexivity.
Defined.

(** ** Release of the temp file *)



(** ** The connection *)

(** C4, as stated, fails: [pullImage] has no call that closes the
    connection it dialed.  After a pull that completes and after a pull
    whose receive fails, the connection is still open. *)
Lemma pullImage_connection_outlives_call :
  ~ no_connection_outlives empty_world
      (world (pullImage env_success example_index "s3cr3t" false
                empty_world))
  /\ ~ no_connection_outlives empty_world
         (world (pullImage env_receive_fails example_index "s3cr3t" false
                   empty_world)).
Proof.
  split; intros H; specialize (H (example_conn false));
    apply (not_elem_of_nil (example_conn false)), H;
    vm_compute; apply list_elem_of_here.
Qed.

(** C4, amended: [pullImage] never closes the connection it dialed: when
    the dial succeeds, the connection is open at the return, on success
    and on every failure.  The temp file is taken care of: a call that
    reached the receive step and returns an error has removed the file; a
    call that succeeds leaves the file with the bytes received and
    returns its release function. *)
Theorem pullImage_session_at_return (env : Env) (idx : imageindex)
    (token : string) (insecure : bool) (w : World) :
  env_DialContext env (server idx) {| InsecureSkipVerify := insecure |} =
    None ->
  conns (world (pullImage env idx token insecure w)) =
    {| conn_target := server idx;
       conn_creds := {| InsecureSkipVerify := insecure |} |} :: conns w
  /\ (forall stream fp,
        EvReceive stream fp ∈ trace (pullImage env idx token insecure w) ->
        (forall err,
           snd (value (pullImage env idx token insecure w)) = Some err ->
           files (world (pullImage env idx token insecure w))
             !! file_name fp = None)
        /\ (snd (value (pullImage env idx token insecure w)) = None ->
            files (world (pullImage env idx token insecure w))
              !! file_name fp = Some (fst (env_Receive env stream fp))
            /\ snd (fst (value (pullImage env idx token insecure w))) =
                 Some {| cleanup_path := file_name fp |})).
Proof.
  intros Hdial. run; agree;
    (split; [reflexivity | intros stream fp Hin; in_trace Hin]);
    (split; [intros err Herr | intros Hok]; try discriminate);
    try apply lookup_delete_eq.
  rewrite Heqp. cbn [fst].
  rewrite lookup_alter_eq, lookup_insert_eq. cbn [fmap option_fmap option_map].
  rewrite N.add_0_r. split; reflexivity.
Qed.

Lemma pullImage_session_at_return_witness :
  conns (world (pullImage env_receive_fails example_index "s3cr3t" false
                  empty_world)) = [example_conn false]
  /\ conns (world (pullImage env_success example_index "s3cr3t" false
                     empty_world)) = [example_conn false].
Proof.
  split.
  - apply (pullImage_session_at_return env_receive_fails example_index
             "s3cr3t" false empty_world eq_refl).
  - apply (pullImage_session_at_return env_success example_index
             "s3cr3t" false empty_world eq_refl).
Defined.

(** ** Transport trust *)

(** C7: [--insecure] is registered with default [false], and what the
    command line leaves in the flag is what every dial gets as
    [InsecureSkipVerify]: each dial of a run, and each connection the run
    opens, carries exactly the flag's value; and a run that gets as far as
    a parsed coordinate does dial with it. *)
Theorem insecure_flag_is_InsecureSkipVerify (env : Env)
    (given : option bool) (args : list string) (w : World) :
  Flags_lookup init "insecure" = Ok false
  /\ Flags_lookup (parsed_flags given) "insecure" = Ok (default false given)
  /\ (forall target creds,
        EvDialContext target creds
          ∈ trace (RunE env (parsed_flags given) args w) ->
        InsecureSkipVerify creds = default false given)
  /\ (forall conn,
        conn ∈ conns (world (RunE env (parsed_flags given) args w)) ->
        conn ∈ conns w
        \/ InsecureSkipVerify (conn_creds conn) = default false given)
  /\ (forall cfg idx,
        length args = 1 ->
        env_BuildConfigFromFlags env "" (env_Getenv env "KUBECONFIG") =
          Ok cfg ->
        BearerToken cfg ≠ "" ->
        env_indexFor env (nth 0 args "") = Ok idx ->
        EvDialContext (server idx)
          {| InsecureSkipVerify := default false given |}
          ∈ trace (RunE env (parsed_flags given) args w)).
Proof.
  split; [reflexivity |]. split; [apply parsed_flags_insecure |].
  split; [| split].
  - intros target creds.
    unfold_actions; rewrite parsed_flags_insecure; case_env;
      intros Hin; in_trace Hin; reflexivity.
  - intros conn.
    unfold_actions; rewrite parsed_flags_insecure; case_env;
      intros Hin; try (apply elem_of_cons in Hin as [-> | Hin]); auto.
  - intros cfg idx Hlen Hcfg Htok Hidx.
    unfold_actions; rewrite parsed_flags_insecure; case_env; agree;
      do 4 apply list_elem_of_further; apply list_elem_of_here.
Qed.

Lemma insecure_flag_is_InsecureSkipVerify_witness :
  EvDialContext "svc:443" {| InsecureSkipVerify := true |}
    ∈ trace (RunE env_success (parsed_flags (Some true))
               ["svc:443/team-a/app"] empty_world)
  /\ EvDialContext "svc:443" {| InsecureSkipVerify := false |}
       ∈ trace (RunE env_success (parsed_flags None)
                  ["svc:443/team-a/app"] empty_world).
Proof.
  split.
  - apply (insecure_flag_is_InsecureSkipVerify env_success (Some true)
             ["svc:443/team-a/app"] empty_world)
      with (cfg := {| BearerToken := "s3cr3t" |}) (idx := example_index);
      [reflexivity | reflexivity | discriminate | reflexivity].
  - apply (insecure_flag_is_InsecureSkipVerify env_success None
             ["svc:443/team-a/app"] empty_world)
      with (cfg := {| BearerToken := "s3cr3t" |}) (idx := example_index);
      [reflexivity | reflexivity | discriminate | reflexivity].
Defined.

(** ** Trust policy of the commit *)

(** C9: every copy into the local store runs under a policy context made
    from the policy whose default is the single requirement
    [PRInsecureAcceptAnything] and which has no transport scopes; no
    policy context of a run is made from any other policy. *)
Theorem commit_policy_accepts_anything (env : Env)
    (flags : gmap string bool) (args : list string) (w : World) :
  (forall polctx dstref srcref,
     EvCopyImage polctx dstref srcref ∈ trace (RunE env flags args w) ->
     ctx_Policy polctx =
       {| Default := [PRInsecureAcceptAnything]; Transports := [] |}
     /\ EvNewPolicyContext (ctx_Policy polctx)
          ∈ trace (RunE env flags args w))
  /\ (forall pol,
        EvNewPolicyContext pol ∈ trace (RunE env flags args w) ->
        pol = {| Default := [PRInsecureAcceptAnything]; Transports := [] |}).
Proof.
  run; (split; [intros polctx dstref srcref Hin | intros pol Hin]);
    in_trace Hin; try reflexivity;
    (split; [reflexivity |]);
    do 13 apply list_elem_of_further; apply list_elem_of_here.
Qed.

Lemma commit_policy_accepts_anything_witness :
  EvNewPolicyContext
    {| Default := [PRInsecureAcceptAnything]; Transports := [] |}
    ∈ trace (RunE env_commit_fails (parsed_flags None)
               ["svc:443/team-a/app"] empty_world).
Proof.
  destruct (commit_policy_accepts_anything env_commit_fails
              (parsed_flags None) ["svc:443/team-a/app"] empty_world)
    as [Hcopy _].
  destruct (Hcopy
              {| ctx_Policy :=
                   {| Default := [PRInsecureAcceptAnything];
                      Transports := [] |} |}
              {| ref_transport := "containers-storage";
                 ref_within := "team-a/app" |}
              (Some {| ref_transport := "docker-archive";
                       ref_within :=
                         "docker-archive:/home/dev/.image/tmp/1.tar" |}))
    as [_ Hnew].
  - vm_compute. do 14 apply list_elem_of_further. apply list_elem_of_here.
  - exact Hnew.
Defined.

(** * Further properties of the pull command *)

(** ** Errors of pullImage *)

(** X1: an error of [pullImage] names the phase that failed and wraps the
    cause unchanged: it is the error of the dial, of the stream opening,
    of the temp directory, of the temp file, of the receive or of the
    reference parsing, wrapped under that phase's prefix, and the failed
    call is in the trace. *)
Theorem pullImage_error_names_phase (env : Env) (idx : imageindex)
    (token : string) (insecure : bool) (w : World) (err : error) :
  snd (value (pullImage env idx token insecure w)) = Some err ->
  (exists cause,
     err = wrapError "error connecting" cause
     /\ env_DialContext env (server idx)
          {| InsecureSkipVerify := insecure |} = Some cause
     /\ trace (pullImage env idx token insecure w) =
          [EvDialContext (server idx) {| InsecureSkipVerify := insecure |}])
  \/ (exists cause conn pkt,
        err = wrapError "error pulling" cause
        /\ env_Pull env conn pkt = Some cause
        /\ last (trace (pullImage env idx token insecure w)) =
             Some (EvPull conn pkt))
  \/ (exists cause,
        err = wrapError "error creating temp dir" cause
        /\ env_createHomeTempDir env = Err cause
        /\ last (trace (pullImage env idx token insecure w)) =
             Some EvCreateHomeTempDir)
  \/ (exists cause fsh,
        err = wrapError "error creating temp file" cause
        /\ env_TempFile env fsh = Err cause
        /\ last (trace (pullImage env idx token insecure w)) =
             Some (EvTempFile fsh))
  \/ (exists cause stream fp,
        err = wrapError "error receiving file" cause
        /\ snd (env_Receive env stream fp) = Some cause
        /\ EvReceive stream fp ∈ trace (pullImage env idx token insecure w))
  \/ (exists cause s,
        err = wrapError "error parsing reference" cause
        /\ env_ParseImageName env s = Err cause
        /\ EvParseImageName s ∈ trace (pullImage env idx token insecure w)).
Proof.
  run; intros Herr; simplify_eq;
    first
      [ left; solve [eauto]
      | right; left; solve [eauto 6]
      | do 2 right; left; solve [eauto]
      | do 3 right; left; solve [eauto 6]
      | do 4 right; left; eexists _, _, _;
        split; [reflexivity |]; split; [| mem_trace];
        match goal with H : env_Receive _ _ _ = _ |- _ => rewrite H end;
        reflexivity
      | do 5 right; eexists _, _;
        split; [reflexivity |]; split; [| mem_trace]; eassumption ].
Qed.

Lemma pullImage_error_names_phase_witness :
  exists cause s,
    wrapError "error parsing reference" (errorString "unknown transport") =
      wrapError "error parsing reference" cause
    /\ env_ParseImageName env_parse_fails s = Err cause
    /\ EvParseImageName s
         ∈ trace (pullImage env_parse_fails example_index "s3cr3t" false
                    empty_world).
Proof.
  destruct (pullImage_error_names_phase env_parse_fails example_index
              "s3cr3t" false empty_world
              (wrapError "error parsing reference"
                 (errorString "unknown transport")) eq_refl)
    as [(c & H & _) | [(c & ? & ? & H & _) | [(c & H & _)
       | [(c & ? & H & _) | [(c & ? & ? & H & _) | H]]]]];
    try discriminate H.
  exact H.
Defined.

(** X2: a pull that fails before the transfer begins (no receive was
    attempted: the dial, the stream, the temp directory or the temp file
    failed) returns an error and leaves the files as they were; it creates
    no progress sink, waits for none and has nothing to release. *)
Theorem pullImage_early_failure (env : Env) (idx : imageindex)
    (token : string) (insecure : bool) (w : World) :
  (forall stream fp,
     EvReceive stream fp ∉ trace (pullImage env idx token insecure w)) ->
  (exists err,
     value (pullImage env idx token insecure w) = (None, None, Some err))
  /\ files (world (pullImage env idx token insecure w)) = files w
  /\ (forall path,
        EvCleanup path ∉ trace (pullImage env idx token insecure w))
  /\ (forall label,
        EvProgbarNew label ∉ trace (pullImage env idx token insecure w))
  /\ (forall pbar,
        EvPbarWait pbar ∉ trace (pullImage env idx token insecure w)).
Proof.
  run; intros Hno;
    try (exfalso; eapply Hno; mem_trace);
    (split; [eauto |]); (split; [reflexivity |]);
    repeat split; intros; not_in_trace.
Qed.

Lemma pullImage_early_failure_witness :
  files (world (pullImage env_temp_file_fails example_index "s3cr3t" false
                  world_with_other_file)) = files world_with_other_file
  /\ forall label,
       EvProgbarNew label
         ∉ trace (pullImage env_temp_file_fails example_index "s3cr3t"
                    false world_with_other_file).
Proof.
  destruct (pullImage_early_failure env_temp_file_fails example_index
              "s3cr3t" false world_with_other_file)
    as (_ & Hfiles & _ & Hnew & _).
  - intros stream fp. vm_compute. intros H.
    repeat (apply elem_of_cons in H as [H | H]; [discriminate H |]).
    apply elem_of_nil in H. exact H.
  - split; [exact Hfiles | exact Hnew].
Defined.

(** ** Files and calls of a run *)



(** X4: nothing is retried.  In any run of [RunE] the server is dialed at
    most once, at most one stream is opened, at most one temp file
    acquired, at most one receive and at most one copy attempted; every
    progress sink created is waited for once; and the run opens at most
    one connection. *)
Theorem RunE_no_retry (env : Env) (flags : gmap string bool)
    (args : list string) (w : World) :
  count_events is_dial (trace (RunE env flags args w)) <= 1
  /\ count_events is_pull (trace (RunE env flags args w)) <= 1
  /\ count_events is_temp_file (trace (RunE env flags args w)) <= 1
  /\ count_events is_receive (trace (RunE env flags args w)) <= 1
  /\ count_events is_copy (trace (RunE env flags args w)) <= 1
  /\ count_events is_pbar_wait (trace (RunE env flags args w)) =
       count_events is_progbar_new (trace (RunE env flags args w))
  /\ length (conns (world (RunE env flags args w))) <= S (length (conns w)).
Proof.
  run; unfold count_events;
    cbn [List.filter length is_dial is_pull is_temp_file is_receive
         is_copy is_pbar_wait is_progbar_new];
    repeat split; lia.
Qed.

(** ** The envelope *)

(** X5: the one message [RunE] sends on the stream is the header made of
    the name and namespace of the parsed coordinate and the bearer token
    of the loaded configuration, which is not empty; it is sent on the
    connection dialed to the coordinate's server with the flag's value,
    and that connection is open at the end of the run. *)
Theorem RunE_pull_envelope (env : Env) (flags : gmap string bool)
    (args : list string) (w : World) (conn : ClientConn) (pkt : Packet) :
  EvPull conn pkt ∈ trace (RunE env flags args w) ->
  exists insecure cfg idx,
    Flags_lookup flags "insecure" = Ok insecure
    /\ env_BuildConfigFromFlags env "" (env_Getenv env "KUBECONFIG") = Ok cfg
    /\ env_indexFor env (nth 0 args "") = Ok idx
    /\ BearerToken cfg ≠ ""
    /\ conn = {| conn_target := server idx;
                 conn_creds := {| InsecureSkipVerify := insecure |} |}
    /\ pkt = {| TestOneof :=
                  Packet_Header
                    {| Name := name idx;
                       Namespace := namespace idx;
                       Token := BearerToken cfg |} |}
    /\ conn ∈ conns (world (RunE env flags args w)).
Proof.
  run; intros Hin; in_trace Hin;
    eexists _, _, _; repeat split; try eassumption;
    apply list_elem_of_here.
Qed.

Lemma RunE_pull_envelope_witness :
  exists insecure cfg idx,
    Flags_lookup (parsed_flags (Some true)) "insecure" = Ok insecure
    /\ env_BuildConfigFromFlags env_receive_fails ""
         (env_Getenv env_receive_fails "KUBECONFIG") = Ok cfg
    /\ env_indexFor env_receive_fails (nth 0 ["svc:443/team-a/app"] "") =
         Ok idx
    /\ BearerToken cfg ≠ ""
    /\ example_conn true =
         {| conn_target := server idx;
            conn_creds := {| InsecureSkipVerify := insecure |} |}
    /\ stream_request (example_stream true) =
         {| TestOneof :=
              Packet_Header
                {| Name := name idx;
                   Namespace := namespace idx;
                   Token := BearerToken cfg |} |}
    /\ example_conn true
         ∈ conns (world (RunE env_receive_fails (parsed_flags (Some true))
                           ["svc:443/team-a/app"] empty_world)).
Proof.
  apply (RunE_pull_envelope env_receive_fails (parsed_flags (Some true))
           ["svc:443/team-a/app"] empty_world (example_conn true)
           (stream_request (example_stream true))).
  vm_compute. mem_trace.
Defined.

(** ** The commit *)

(** X6: the copy into the local store comes after the pull and before the
    release.  When [RunE] calls the copy, its destination is the local
    storage reference of the parsed coordinate, its source is the
    reference parsed from "docker-archive:" and the name of the temp file
    that a successful receive wrote, no release has been called before
    the copy, and the release of that file is the one call after it. *)
Theorem RunE_commit_after_pull_before_release (env : Env)
    (flags : gmap string bool) (args : list string) (w : World)
    (polctx : PolicyContext) (dstref : ImageReference)
    (srcref : option ImageReference) :
  EvCopyImage polctx dstref srcref ∈ trace (RunE env flags args w) ->
  exists idx stream fp ref pre,
    env_indexFor env (nth 0 args "") = Ok idx
    /\ env_localStorageRef env idx = Ok dstref
    /\ snd (env_Receive env stream fp) = None
    /\ env_ParseImageName env ("docker-archive:" +:+ file_name fp) = Ok ref
    /\ srcref = Some ref
    /\ EvReceive stream fp ∈ pre
    /\ (forall path, EvCleanup path ∉ pre)
    /\ trace (RunE env flags args w) =
         pre ++ [EvCopyImage polctx dstref srcref;
                 EvCleanup (file_name fp)].
Proof.
  run; intros Hin; in_trace Hin;
    eexists _, _, _, _, [_; _; _; _; _; _; _; _; _; _; _; _; _; _];
    repeat split;
    try eassumption; try mem_trace; try (intros; not_in_trace);
    match goal with H : env_Receive _ _ _ = _ |- _ => rewrite H end;
    reflexivity.
Qed.

Lemma RunE_commit_after_pull_before_release_witness :
  exists idx stream fp ref pre,
    env_indexFor env_commit_fails (nth 0 ["svc:443/team-a/app"] "") = Ok idx
    /\ env_localStorageRef env_commit_fails idx =
         Ok {| ref_transport := "containers-storage";
               ref_within := "team-a/app" |}
    /\ snd (env_Receive env_commit_fails stream fp) = None
    /\ env_ParseImageName env_commit_fails
         ("docker-archive:" +:+ file_name fp) = Ok ref
    /\ Some {| ref_transport := "docker-archive";
               ref_within := "docker-archive:/home/dev/.image/tmp/1.tar" |} =
         Some ref
    /\ EvReceive stream fp ∈ pre
    /\ (forall path, EvCleanup path ∉ pre)
    /\ trace (RunE env_commit_fails (parsed_flags None)
                ["svc:443/team-a/app"] empty_world) =
         pre ++ [EvCopyImage
                   {| ctx_Policy :=
                        {| Default := [PRInsecureAcceptAnything];
                           Transports := [] |} |}
                   {| ref_transport := "containers-storage";
                      ref_within := "team-a/app" |}
                   (Some {| ref_transport := "docker-archive";
                            ref_within :=
                              "docker-archive:/home/dev/.image/tmp/1.tar" |});
                 EvCleanup (file_name fp)].
Proof.
  apply (RunE_commit_after_pull_before_release env_commit_fails
           (parsed_flags None) ["svc:443/team-a/app"] empty_world).
  vm_compute. mem_trace.
Defined.

(** X7: [RunE] returns nil exactly when it called the copy and the copy
    returned nil: success is reported for a committed image and for
    nothing else. *)
Theorem RunE_nil_iff_committed (env : Env) (flags : gmap string bool)
    (args : list string) (w : World) :
  value (RunE env flags args w) = None <->
  exists polctx dstref srcref,
    EvCopyImage polctx dstref srcref ∈ trace (RunE env flags args w)
    /\ env_copy_Image env polctx dstref srcref = None.
Proof.
  run; (split; [intros Hnil; try discriminate Hnil
               | intros (polctx & dstref & srcref & Hin & Hcopy);
                 in_trace Hin; congruence]).
  eexists _, _, _. split; [mem_trace | eassumption].
Qed.

Lemma RunE_nil_iff_committed_witness :
  value (RunE env_success (parsed_flags None) ["svc:443/team-a/app"]
           empty_world) = None.
Proof.
  apply (RunE_nil_iff_committed env_success (parsed_flags None)
           ["svc:443/team-a/app"] empty_world).
  exists {| ctx_Policy :=
              {| Default := [PRInsecureAcceptAnything]; Transports := [] |} |},
    {| ref_transport := "containers-storage"; ref_within := "team-a/app" |},
    (Some {| ref_transport := "docker-archive";
             ref_within := "docker-archive:/home/dev/.image/tmp/1.tar" |}).
  split; [vm_compute; mem_trace | reflexivity].
Defined.

(** ** Errors before the pull *)

(** X8: an error of the flag lookup or of loading the configuration is
    returned as it is, and ends the run there: after a failed flag lookup
    nothing else was called, and the configuration is built from an empty
    master URL and the path in KUBECONFIG, after which a failure ends the
    run with the world unchanged. *)
Theorem RunE_setup_error (env : Env) (flags : gmap string bool)
    (args : list string) (w : World) (err : error) :
  length args = 1 ->
  (Flags_lookup flags "insecure" = Err err ->
   RunE env flags args w =
     {| value := Some err; world := w; trace := [EvGetBool "insecure"] |})
  /\ (forall insecure,
        Flags_lookup flags "insecure" = Ok insecure ->
        env_BuildConfigFromFlags env "" (env_Getenv env "KUBECONFIG") =
          Err err ->
        RunE env flags args w =
          {| value := Some err;
             world := w;
             trace := [EvGetBool "insecure"; EvGetenv "KUBECONFIG";
                       EvBuildConfigFromFlags ""
                         (env_Getenv env "KUBECONFIG")] |}).
Proof.
  intros Hlen. split.
  - intros Hflag. run; agree; try contradiction; try reflexivity.
  - intros insecure Hflag Hcfg. run; agree; try contradiction; try reflexivity.
Qed.

Lemma RunE_setup_error_witness :
  RunE env_no_kubeconfig (parsed_flags None) ["svc:443/team-a/app"]
    empty_world =
    {| value := Some (errorString "invalid configuration");
       world := empty_world;
       trace := [EvGetBool "insecure"; EvGetenv "KUBECONFIG";
                 EvBuildConfigFromFlags "" "/home/dev/.kube/config"] |}.
Proof.
  apply (RunE_setup_error env_no_kubeconfig (parsed_flags None)
           ["svc:443/team-a/app"] empty_world
           (errorString "invalid configuration") eq_refl)
    with (insecure := false); reflexivity.
Defined.

(** X9: with a bearer token at hand, a coordinate that [indexFor] rejects
    ends the run before any network or file action: [RunE] passes its one
    argument to [indexFor] and returns [indexFor]'s error as it is, with
    the world unchanged. *)
Theorem RunE_coordinate_error (env : Env) (flags : gmap string bool)
    (arg : string) (w : World) (insecure : bool) (cfg : Config)
    (err : error) :
  Flags_lookup flags "insecure" = Ok insecure ->
  env_BuildConfigFromFlags env "" (env_Getenv env "KUBECONFIG") = Ok cfg ->
  BearerToken cfg ≠ "" ->
  env_indexFor env arg = Err err ->
  RunE env flags [arg] w =
    {| value := Some err;
       world := w;
       trace := setup_calls (env_Getenv env "KUBECONFIG") arg |}.
Proof.
  intros Hflag Hcfg Htok Hidx.
  unfold_actions; change (nth 0 [arg] "") with arg; case_env;
    agree; one_arg; try contradiction; reflexivity.
Qed.

Lemma RunE_coordinate_error_witness :
  RunE env_success (parsed_flags None) ["team-a/app"] empty_world =
    {| value := Some (errorString "invalid image reference");
       world := empty_world;
       trace := setup_calls "/home/dev/.kube/config" "team-a/app" |}.
Proof.
  apply (RunE_coordinate_error env_success (parsed_flags None)
           "team-a/app" empty_world false {| BearerToken := "s3cr3t" |}
           (errorString "invalid image reference"));
    [reflexivity | reflexivity | discriminate | reflexivity].
Defined.

(** ** After the pull *)



(** X11: how [RunE] runs [pullImage].  After the four calls of the setup
    it runs [pullImage] on the parsed coordinate, the configuration's
    bearer token and the flag's value, in the world it started in.  When
    [pullImage] fails, [RunE] returns its error as it is and calls
    nothing more, so the run ends in the world [pullImage] left.  When it
    succeeds, the run goes on and ends with the call of the clean-up
    function [pullImage] returned. *)
Theorem RunE_runs_pullImage (env : Env) (flags : gmap string bool)
    (arg : string) (w : World) (insecure : bool) (cfg : Config)
    (idx : imageindex) :
  Flags_lookup flags "insecure" = Ok insecure ->
  env_BuildConfigFromFlags env "" (env_Getenv env "KUBECONFIG") = Ok cfg ->
  BearerToken cfg ≠ "" ->
  env_indexFor env arg = Ok idx ->
  exists rest,
    trace (RunE env flags [arg] w) =
      setup_calls (env_Getenv env "KUBECONFIG") arg
        ++ trace (pullImage env idx (BearerToken cfg) insecure w) ++ rest
    /\ (forall err,
          snd (value (pullImage env idx (BearerToken cfg) insecure w)) =
            Some err ->
          value (RunE env flags [arg] w) = Some err
          /\ rest = []
          /\ world (RunE env flags [arg] w) =
               world (pullImage env idx (BearerToken cfg) insecure w))
    /\ (snd (value (pullImage env idx (BearerToken cfg) insecure w)) = None ->
        exists c,
          snd (fst (value (pullImage env idx (BearerToken cfg) insecure w))) =
            Some c
          /\ last rest = Some (EvCleanup (cleanup_path c))
          /\ conns (world (RunE env flags [arg] w)) =
               conns (world (pullImage env idx (BearerToken cfg) insecure w))).
Proof.
  intros Hflag Hcfg Htok Hidx.
  unfold_actions; change (nth 0 [arg] "") with arg; case_env;
    agree; one_arg; try contradiction;
    first
      [ exists []; split; [reflexivity |];
        split; [intros ? [= <-]; auto | discriminate]
      | eexists [_; _]; split; [reflexivity |];
        split; [discriminate | intros _; eexists; auto]
      | eexists [_; _; _]; split; [reflexivity |];
        split; [discriminate | intros _; eexists; auto]
      | eexists [_; _; _; _]; split; [reflexivity |];
        split; [discriminate | intros _; eexists; auto] ].
Qed.

Lemma RunE_runs_pullImage_witness :
  value (RunE env_receive_fails (parsed_flags None) ["svc:443/team-a/app"]
           empty_world) =
    Some (wrapError "error receiving file" (errorString "unexpected EOF"))
  /\ world (RunE env_receive_fails (parsed_flags None)
              ["svc:443/team-a/app"] empty_world) =
       world (pullImage env_receive_fails example_index "s3cr3t" false
                empty_world).
Proof.
  destruct (RunE_runs_pullImage env_receive_fails (parsed_flags None)
              "svc:443/team-a/app" empty_world false
              {| BearerToken := "s3cr3t" |} example_index)
    as (rest & _ & Hfail & _);
    [reflexivity | reflexivity | discriminate | reflexivity |].
  destruct (Hfail (wrapError "error receiving file"
                     (errorString "unexpected EOF")) eq_refl)
    as (Hval & _ & Hworld).
  split; [exact Hval | exact Hworld].
Defined.

(** * Properties of the controllers' start-up *)

(** X12: the controllers are started only on synced caches.  When [main]
    starts the starter, it has before that started the core and the image
    informer factories, in this order, waited for the config map, secret,
    image and image import informers of these factories, and been told
    that they are in sync; the factories resync every minute; and the
    starter is started once, under the leader election id
    "imgctrl-leader-election". *)
Theorem main_starts_controllers_on_synced_caches (env : Imgctrl.Env)
    (version : string) (st : Imgctrl.Starter) (id : string) :
  Imgctrl.EvStarterStart st id ∈ Imgctrl.calls (Imgctrl.main env version) ->
  exists corinf imginf pre post,
    Imgctrl.calls (Imgctrl.main env version) =
      pre ++ [Imgctrl.EvFactoryStart (Imgctrl.CoreFactory corinf);
              Imgctrl.EvFactoryStart (Imgctrl.ImageFactory imginf);
              Imgctrl.EvWaitForCacheSync
                [Imgctrl.ConfigMaps corinf; Imgctrl.Secrets corinf;
                 Imgctrl.Images imginf; Imgctrl.ImageImports imginf];
              Imgctrl.EvKlogInfo ["caches in sync, moving on."];
              Imgctrl.EvStarterStart st id] ++ post
    /\ Imgctrl.env_WaitForCacheSync env
         [Imgctrl.ConfigMaps corinf; Imgctrl.Secrets corinf;
          Imgctrl.Images imginf; Imgctrl.ImageImports imginf] = true
    /\ Imgctrl.corinf_resync corinf = 60000000000%Z
    /\ Imgctrl.imginf_resync imginf = 60000000000%Z
    /\ (forall st' id', Imgctrl.EvStarterStart st' id' ∉ pre ++ post)
    /\ id = "imgctrl-leader-election".
Proof.
  run_main; intros Hin; in_trace Hin;
    eexists _, _, [_; _; _; _; _; _; _; _; _; _; _], _;
    (split; [reflexivity |]); (split; [eassumption |]);
    (split; [reflexivity |]); (split; [reflexivity |]);
    (split; [intros; not_in_trace | reflexivity]).
Qed.

Lemma main_starts_controllers_on_synced_caches_witness :
  exists corinf imginf,
    Imgctrl.env_WaitForCacheSync
      (Imgctrl.example_env (Ok Imgctrl.example_config) true None)
      [Imgctrl.ConfigMaps corinf; Imgctrl.Secrets corinf;
       Imgctrl.Images imginf; Imgctrl.ImageImports imginf] = true
    /\ Imgctrl.corinf_resync corinf = 60000000000%Z.
Proof.
  destruct (main_starts_controllers_on_synced_caches
              (Imgctrl.example_env (Ok Imgctrl.example_config) true None)
              Imgctrl.Version Imgctrl.example_starter
              "imgctrl-leader-election")
    as (corinf & imginf & pre & post & _ & Hsync & Hres & _).
  - vm_compute. mem_trace.
  - exists corinf, imginf. split; [exact Hsync | exact Hres].
Defined.

(** X13: when the caches do not sync, [main] ends the process with
    "caches not syncing" right after the wait, and the controllers are
    never started. *)
Theorem main_unsynced_caches_are_fatal (env : Imgctrl.Env)
    (version : string) (informers : list Imgctrl.Informer) :
  Imgctrl.EvWaitForCacheSync informers
    ∈ Imgctrl.calls (Imgctrl.main env version) ->
  Imgctrl.env_WaitForCacheSync env informers = false ->
  Imgctrl.outcome (Imgctrl.main env version) =
    inl (Imgctrl.klog_Fatal "caches not syncing")
  /\ last (Imgctrl.calls (Imgctrl.main env version)) =
       Some (Imgctrl.EvWaitForCacheSync informers)
  /\ (forall st id,
        Imgctrl.EvStarterStart st id
          ∉ Imgctrl.calls (Imgctrl.main env version)).
Proof.
  run_main; intros Hin Hsync; in_trace Hin; try congruence;
    (split; [reflexivity |]);
    (split; [reflexivity | intros; not_in_trace]).
Qed.

Lemma main_unsynced_caches_are_fatal_witness :
  Imgctrl.outcome
    (Imgctrl.main (Imgctrl.example_env (Ok Imgctrl.example_config) false None)
       Imgctrl.Version) =
    inl (Imgctrl.klog_Fatal "caches not syncing").
Proof.
  destruct (main_unsynced_caches_are_fatal
              (Imgctrl.example_env (Ok Imgctrl.example_config) false None)
              Imgctrl.Version Imgctrl.example_informers)
    as (Hout & _).
  - vm_compute. mem_trace.
  - reflexivity.
  - exact Hout.
Defined.

(** X14: [main] returns exactly when it started the starter, and an error
    of the starter does not end the process: [main] logs it with
    "unable to start controllers: %s", as its last call, and returns. *)
Theorem main_returns_iff_starter_ran (env : Imgctrl.Env)
    (version : string) :
  (Imgctrl.outcome (Imgctrl.main env version) = inr tt <->
   exists st id,
     Imgctrl.EvStarterStart st id
       ∈ Imgctrl.calls (Imgctrl.main env version))
  /\ (forall st id err,
        Imgctrl.EvStarterStart st id
          ∈ Imgctrl.calls (Imgctrl.main env version) ->
        Imgctrl.env_Start env st id = Some err ->
        Imgctrl.outcome (Imgctrl.main env version) = inr tt
        /\ last (Imgctrl.calls (Imgctrl.main env version)) =
             Some (Imgctrl.EvKlogErrorf
                     "unable to start controllers: %s" err)).
Proof.
  run_main;
    (split;
     [ split;
       [ intros Hret; try discriminate Hret; eexists _, _; mem_trace
       | intros (st & id & Hin); in_trace Hin; reflexivity ]
     | intros st id err Hin Herr; in_trace Hin; agree;
       split; reflexivity ]).
Qed.

Lemma main_returns_iff_starter_ran_witness :
  Imgctrl.outcome
    (Imgctrl.main
       (Imgctrl.example_env (Ok Imgctrl.example_config) true
          (Some (errorString "leader election lost")))
       Imgctrl.Version) = inr tt
  /\ last (Imgctrl.calls
             (Imgctrl.main
                (Imgctrl.example_env (Ok Imgctrl.example_config) true
                   (Some (errorString "leader election lost")))
                Imgctrl.Version)) =
       Some (Imgctrl.EvKlogErrorf "unable to start controllers: %s"
               (errorString "leader election lost")).
Proof.
  apply (main_returns_iff_starter_ran
           (Imgctrl.example_env (Ok Imgctrl.example_config) true
              (Some (errorString "leader election lost")))
           Imgctrl.Version)
    with (st := Imgctrl.example_starter) (id := "imgctrl-leader-election").
  - vm_compute. mem_trace.
  - reflexivity.
Defined.


